(** * GPRO-Graphics1: the vec3 primitive and the gradient-sky image loop

    A shallow embedding of [gproVector.h], [_inl/gproVector.inl] and the
    test console's [main.cpp].

    Modelling conventions.
    - A C++ [float] is an IEEE-754 binary32 value and every arithmetic
      operator rounds its result to binary32, to nearest, ties to even
      (no extended intermediate precision, no fused multiply-add).  The
      values and the operations are the ones of the standard library's
      [SpecFloat], instantiated at precision 24 and maximal exponent 128.
      A [double] is the same at precision 53 and maximal exponent 1024.
    - An [int] is a [Z]; a conversion whose result does not fit 32 bits is
      undefined behaviour and is modelled by [None].
    - [union vec3] is one storage of three floats: [e[0]], [e[1]], [e[2]]
      and [x], [y], [z] are two sets of names for the same three cells.
    - The function API works on caller-owned buffers: memory is a map from
      addresses (counted in floats) to floats and every function threads
      it, returning the pointer it was given.
    - A stream is the text written to it so far. *)

From Stdlib Require Import ZArith Bool List String Ascii Lia.
From Stdlib Require Import Floats.SpecFloat.
From Stdlib Require Import Numbers.DecimalString.
Import ListNotations.

Local Open Scope Z_scope.

(** * Part I: the program *)

(** ** Scalars *)

(** [float]: IEEE-754 binary32. *)
Module F32.

Definition prec : Z := 24.
Definition emax : Z := 128.

Definition float : Type := spec_float.

Definition add : float -> float -> float := SFadd prec emax.
Definition sub : float -> float -> float := SFsub prec emax.
Definition mul : float -> float -> float := SFmul prec emax.
Definition div : float -> float -> float := SFdiv prec emax.
Definition neg : float -> float := SFopp.

(** [sqrt] on a [float].  Whether the call resolves to the [float]
    overload or goes through [double] and back, the result is the
    correctly rounded binary32 square root. *)
Definition sqrt : float -> float := SFsqrt prec emax.

(** Conversion of an [int] to [float]; also an integral-valued literal
    such as [1.0f]. *)
Definition of_int (n : Z) : float := binary_normalize prec emax n 0 false.

(** A decimal literal [num/den] with the [f] suffix: the binary32 value
    nearest to the quotient.  Both [num] and [den] are below [2^24] in
    every use, so they convert exactly and the correctly rounded
    division is the nearest float. *)
Definition lit (num den : Z) : float := div (of_int num) (of_int den).

(** [static_cast<int>(f)]: the fractional part is discarded; the
    behaviour is undefined when the truncated value is not an [int]. *)
Definition trunc (f : float) : option Z :=
  match f with
  | S754_zero _ => Some 0
  | S754_finite s m e =>
      let mag := match e with
                 | Zneg p => Z.shiftr (Zpos m) (Zpos p)
                 | _ => Z.shiftl (Zpos m) e
                 end in
      let n := cond_Zopp s mag in
      if (- 2 ^ 31 <=? n) && (n <=? 2 ^ 31 - 1) then Some n else None
  | S754_infinity _ | S754_nan => None
  end.

(** The representable binary32 values. *)
Definition valid (f : float) : bool := valid_binary prec emax f.

End F32.

(** [double]: IEEE-754 binary64. *)
Module F64.

Definition prec : Z := 53.
Definition emax : Z := 1024.

Definition double : Type := spec_float.

(** Implicit conversion [float -> double]: every binary32 value is a
    binary64 value; only the mantissa is re-aligned. *)
Definition of_float (f : F32.float) : double :=
  match f with
  | S754_finite s m e => binary_round prec emax s m e
  | _ => f
  end.

(** Narrowing conversion [double -> float]: rounds to nearest. *)
Definition to_float (d : double) : F32.float :=
  match d with
  | S754_finite s m e => binary_round F32.prec F32.emax s m e
  | _ => d
  end.

(** An integral-valued [double] literal such as [1.0] or [2.0]. *)
Definition of_int (n : Z) : double := binary_normalize prec emax n 0 false.

Definition valid (d : double) : bool := valid_binary prec emax d.

End F64.

Definition float : Type := F32.float.
Definition double : Type := F64.double.

Declare Scope f32_scope.
Delimit Scope f32_scope with f32.
Infix "+" := F32.add : f32_scope.
Infix "-" := F32.sub : f32_scope.
Infix "*" := F32.mul : f32_scope.
Infix "/" := F32.div : f32_scope.
Notation "- a" := (F32.neg a) : f32_scope.

Definition is_nan (f : spec_float) : bool :=
  match f with S754_nan => true | _ => false end.

(** Two floats, of whatever format, that stand for the same number: the
    signs agree and so do the mantissas once both are aligned on the
    smaller exponent.  NaN is not a number. *)
Definition same_number (a b : spec_float) : bool :=
  match a, b with
  | S754_zero s1, S754_zero s2 => Bool.eqb s1 s2
  | S754_infinity s1, S754_infinity s2 => Bool.eqb s1 s2
  | S754_finite s1 m1 e1, S754_finite s2 m2 e2 =>
      Bool.eqb s1 s2 &&
      (Zpos m1 * 2 ^ (e1 - Z.min e1 e2) =? Zpos m2 * 2 ^ (e2 - Z.min e1 e2))
  | _, _ => false
  end.

(** The float literals of the sources. *)
Definition f0 : float := S754_zero false.           (* 0.0f *)
Definition f1 : float := F32.of_int 1.              (* 1.0f *)
Definition f0_5 : float := F32.lit 5 10.            (* 0.5f *)
Definition f0_7 : float := F32.lit 7 10.            (* 0.7f *)
Definition f255_999 : float := F32.lit 255999 1000. (* 255.999f *)

(** ** [union vec3] (gproVector.h)

    [float3 e] and [struct { float x, y, z; }] occupy the same twelve
    bytes.  The storage is three float cells; [e] indexes them, [x], [y]
    and [z] name them. *)

Record vec3 : Type := mk_vec3 { e0 : float; e1 : float; e2 : float }.

(** The named members: [x] lies on [e[0]], [y] on [e[1]], [z] on [e[2]]. *)
Definition x (v : vec3) : float := e0 v.
Definition y (v : vec3) : float := e1 v.
Definition z (v : vec3) : float := e2 v.

Definition set_x (v : vec3) (a : float) : vec3 := mk_vec3 a (e1 v) (e2 v).
Definition set_y (v : vec3) (a : float) : vec3 := mk_vec3 (e0 v) a (e2 v).
Definition set_z (v : vec3) (a : float) : vec3 := mk_vec3 (e0 v) (e1 v) a.

(** [float operator[](int i) const { return e[i]; }]: no bounds check;
    an index outside [0..2] is undefined behaviour. *)
Definition operator_index (v : vec3) (i : Z) : option float :=
  match i with
  | 0 => Some (e0 v)
  | 1 => Some (e1 v)
  | 2 => Some (e2 v)
  | _ => None
  end.

(** [float& operator[](int i)], used as [v[i] = a]. *)
Definition operator_index_set (v : vec3) (i : Z) (a : float) : option vec3 :=
  match i with
  | 0 => Some (mk_vec3 a (e1 v) (e2 v))
  | 1 => Some (mk_vec3 (e0 v) a (e2 v))
  | 2 => Some (mk_vec3 (e0 v) (e1 v) a)
  | _ => None
  end.

Definition point3 : Type := vec3.
Definition color : Type := vec3.

Local Open Scope f32_scope.

(** A constructor runs on storage that holds indeterminate values;
    [uninit] stands for it.  No result depends on the choice
    (see [vec3_ctor_on_any]). *)
Definition uninit : vec3 := mk_vec3 S754_nan S754_nan S754_nan.

(** [vec3::vec3(float xc, float yc = 0.0f, float zc = 0.0f) : x(xc), y(yc), z(zc)]:
    the member initialisers write the named members in declaration order. *)
Definition vec3_ctor_on (storage : vec3) (xc yc zc : float) : vec3 :=
  set_z (set_y (set_x storage xc) yc) zc.

Definition vec3_init (xc yc zc : float) : vec3 :=
  vec3_ctor_on uninit xc yc zc.

(** The defaulted arguments [yc = 0.0f], [zc = 0.0f]. *)
Definition vec3_init1 (xc : float) : vec3 := vec3_init xc f0 f0.
Definition vec3_init2 (xc yc : float) : vec3 := vec3_init xc yc f0.

(** [vec3::vec3() : x(0.0f), y(0.0f), z(0.0f)] *)
Definition vec3_default : vec3 := vec3_ctor_on uninit f0 f0 f0.

(** [vec3::vec3(vec3 const& rh) : x(rh.x), y(rh.y), z(rh.z)] *)
Definition vec3_copy (rh : vec3) : vec3 := vec3_init (x rh) (y rh) (z rh).

(** [vec3& vec3::operator=(vec3 const& rh)]: the new value of [*this]. *)
Definition operator_assign (this rh : vec3) : vec3 :=
  mk_vec3 (e0 rh) (e1 rh) (e2 rh).

(** [vec3& vec3::operator+=(vec3 const& rh)]: the new value of [*this]. *)
Definition operator_add_assign (this rh : vec3) : vec3 :=
  mk_vec3 (e0 this + e0 rh) (e1 this + e1 rh) (e2 this + e2 rh).

(** [vec3 const vec3::operator+(vec3 const& rh) const]
    [{ return vec3(e[0] + e[0], e[1] + e[1], e[2] + e[2]); }] *)
Definition operator_add (this rh : vec3) : vec3 :=
  vec3_init (e0 this + e0 this) (e1 this + e1 this) (e2 this + e2 this).

(** [vec3 operator-() const] *)
Definition operator_neg (this : vec3) : vec3 :=
  vec3_init (- e0 this) (- e1 this) (- e2 this).

(** [vec3& operator*=(const float t)]: the new value of [*this]. *)
Definition operator_mul_assign (this : vec3) (t : float) : vec3 :=
  mk_vec3 (e0 this * t) (e1 this * t) (e2 this * t).

(** [vec3& operator/=(const float t) { return *this *= 1 / t; }] *)
Definition operator_div_assign (this : vec3) (t : float) : vec3 :=
  operator_mul_assign this (F32.of_int 1 / t).

(** [float length_squared() const] *)
Definition length_squared (this : vec3) : float :=
  e0 this * e0 this + e1 this * e1 this + e2 this * e2 this.

(** [float length() const { return sqrt(length_squared()); }] *)
Definition length (this : vec3) : float :=
  F32.sqrt (length_squared this).

(** [vec3 operator-(const vec3& u, const vec3& v)] *)
Definition operator_sub (u v : vec3) : vec3 :=
  vec3_init (e0 u - e0 v) (e1 u - e1 v) (e2 u - e2 v).

(** [vec3 operator*(const point3& u, const vec3& v)] *)
Definition operator_mul_vv (u v : vec3) : vec3 :=
  vec3_init (e0 u * e0 v) (e1 u * e1 v) (e2 u * e2 v).

(** [vec3 operator*(float t, const vec3& v)] *)
Definition operator_mul_sv (t : float) (v : vec3) : vec3 :=
  vec3_init (t * e0 v) (t * e1 v) (t * e2 v).

(** [vec3 operator*(const vec3& v, float t) { return t * v; }] *)
Definition operator_mul_vs (v : vec3) (t : float) : vec3 :=
  operator_mul_sv t v.

(** [vec3 operator/(vec3 v, float t) { return (1 / t) * v; }] *)
Definition operator_div (v : vec3) (t : float) : vec3 :=
  operator_mul_sv (F32.of_int 1 / t) v.

(** [double dot(const vec3& u, const vec3& v)]: the expression is
    evaluated in [float] and converted to [double] on return. *)
Definition dot (u v : vec3) : double :=
  F64.of_float (e0 u * e0 v + e1 u * e1 v + e2 u * e2 v).

(** [vec3 cross(const vec3& u, const vec3& v)] *)
Definition cross (u v : vec3) : vec3 :=
  vec3_init (e1 u * e2 v - e2 u * e1 v)
            (e2 u * e0 v - e0 u * e2 v)
            (e0 u * e1 v - e1 u * e0 v).

(** [vec3 unit_vector(vec3 v) { return v / v.length(); }] *)
Definition unit_vector (v : vec3) : vec3 :=
  operator_div v (length v).

Local Close Scope f32_scope.

(** ** The function API on caller-owned buffers (gproVector.inl)

    [float3 v] as a parameter is a [float*]: an address.  Addresses are
    counted in floats, so [v[i]] is the cell at [v + i]. *)

Definition floatv : Type := Z.
Definition mem : Type := Z -> float.

Definition load (m : mem) (v : floatv) (i : Z) : float := m (v + i).

Definition store (m : mem) (v : floatv) (i : Z) (a : float) : mem :=
  fun q => if q =? v + i then a else m q.

(** Computations that read and write memory. *)
Definition C (A : Type) : Type := mem -> A * mem.

Definition ret {A} (a : A) : C A := fun m => (a, m).

Definition bind {A B} (c : C A) (k : A -> C B) : C B :=
  fun m => let (a, m') := c m in k a m'.

Notation "x <- c ;; k" := (bind c (fun x => k))
  (at level 61, c at next level, right associativity).
Notation "c ;; k" := (bind c (fun _ => k))
  (at level 61, right associativity).

Definition rd (v : floatv) (i : Z) : C float := fun m => (load m v i, m).
Definition wr (v : floatv) (i : Z) (a : float) : C unit :=
  fun m => (tt, store m v i a).

Definition exec {A} (c : C A) (m : mem) : mem := snd (c m).
Definition eval {A} (c : C A) (m : mem) : A := fst (c m).

(** The three floats found at [v]. *)
Definition load3 (m : mem) (v : floatv) : vec3 :=
  mk_vec3 (load m v 0) (load m v 1) (load m v 2).

Local Open Scope f32_scope.

(** [v_out[0] = v_out[1] = v_out[2] = 0.0f; return v_out;] *)
Definition vec3default (v_out : floatv) : C floatv :=
  wr v_out 2 f0 ;;
  wr v_out 1 f0 ;;
  wr v_out 0 f0 ;;
  ret v_out.

Definition vec3init (v_out : floatv) (xc yc zc : float) : C floatv :=
  wr v_out 0 xc ;;
  wr v_out 1 yc ;;
  wr v_out 2 zc ;;
  ret v_out.

Definition vec3copy (v_out v_rh : floatv) : C floatv :=
  a0 <- rd v_rh 0 ;; wr v_out 0 a0 ;;
  a1 <- rd v_rh 1 ;; wr v_out 1 a1 ;;
  a2 <- rd v_rh 2 ;; wr v_out 2 a2 ;;
  ret v_out.

Definition vec3add (v_lh_sum v_rh : floatv) : C floatv :=
  l0 <- rd v_lh_sum 0 ;; r0 <- rd v_rh 0 ;; wr v_lh_sum 0 (l0 + r0) ;;
  l1 <- rd v_lh_sum 1 ;; r1 <- rd v_rh 1 ;; wr v_lh_sum 1 (l1 + r1) ;;
  l2 <- rd v_lh_sum 2 ;; r2 <- rd v_rh 2 ;; wr v_lh_sum 2 (l2 + r2) ;;
  ret v_lh_sum.

(** [return vec3init(v_sum, (v_lh[0] + v_rh[0]), (v_lh[1] + v_rh[1]), (v_lh[2] + v_rh[2]));]
    the three sums are computed before [vec3init] writes anything. *)
Definition vec3sum (v_sum v_lh v_rh : floatv) : C floatv :=
  l0 <- rd v_lh 0 ;; r0 <- rd v_rh 0 ;;
  l1 <- rd v_lh 1 ;; r1 <- rd v_rh 1 ;;
  l2 <- rd v_lh 2 ;; r2 <- rd v_rh 2 ;;
  vec3init v_sum (l0 + r0) (l1 + r1) (l2 + r2).

(** [vec3::vec3(float3 const vc) : x(vc[0]), y(vc[1]), z(vc[2])] *)
Definition vec3_of_array (vc : floatv) : C vec3 :=
  a0 <- rd vc 0 ;;
  a1 <- rd vc 1 ;;
  a2 <- rd vc 2 ;;
  ret (vec3_init a0 a1 a2).

Local Close Scope f32_scope.

(** ** [testVector] (main.cpp)

    The four local buffers [av], [bv], [cv], [dv] live at addresses chosen
    by the compiler; they are parameters here.  The function-API half
    returns the pointer of the last call; the operator half returns the
    final values of [a], [b], [c], [d].  The trailing [printf] lines are
    left out. *)

Definition testVector_arrays (av bv cv dv : floatv) : C floatv :=
  vec3default av ;;
  vec3init bv (F32.of_int 1) (F32.of_int 2) (F32.of_int 3) ;;
  p <- vec3init cv (F32.of_int 4) (F32.of_int 5) (F32.of_int 6) ;;
  vec3copy dv p ;;
  vec3copy av dv ;;
  vec3add dv bv ;;
  vec3sum dv bv bv ;;
  q <- vec3sum dv cv bv ;;
  vec3add q av.

Definition testVector_operators (cv : floatv) : C (vec3 * vec3 * vec3 * vec3) :=
  let a := vec3_default in
  let b := vec3_init (F32.of_int 1) (F32.of_int 2) (F32.of_int 3) in
  c <- vec3_of_array cv ;;
  let d := vec3_copy c in
  let a := operator_assign a d in
  let d := operator_add_assign d b in
  let d := operator_assign d (operator_add b b) in
  let d := operator_assign d (operator_add (operator_add c b) a) in
  ret (a, b, c, d).

Definition testVector (av bv cv dv : floatv) : C (vec3 * vec3 * vec3 * vec3) :=
  testVector_arrays av bv cv dv ;;
  testVector_operators cv.

(** ** Output streams *)

Local Open Scope string_scope.

Definition ostream : Type := string.

Definition LF : string := String (ascii_of_nat 10) "".
Definition CR : string := String (ascii_of_nat 13) "".

(** [out << n] for an [int]: decimal digits, a leading [-] if negative. *)
Definition put_int (out : ostream) (n : Z) : ostream :=
  out ++ NilZero.string_of_int (Z.to_int n).

(** [out << s] for a character or a string literal. *)
Definition put (out : ostream) (s : string) : ostream := out ++ s.

Local Open Scope f32_scope.

(** [void write_color(std::ostream& out, color pixel_color)] (gproVector.h).
    [None] when one of the three casts to [int] is undefined. *)
Definition write_color (out : ostream) (pixel_color : color) : option ostream :=
  match F32.trunc (f255_999 * x pixel_color),
        F32.trunc (f255_999 * y pixel_color),
        F32.trunc (f255_999 * z pixel_color) with
  | Some r, Some g, Some b =>
      Some (put (put_int (put (put_int (put (put_int out r) " ") g) " ") b) LF)
  | _, _, _ => None
  end.

(** ** [class ray] (gproVector.h) *)

Record ray : Type := mk_ray { orig : point3; dir : vec3 }.

Definition origin (r : ray) : point3 := orig r.
Definition direction (r : ray) : vec3 := dir r.

(** [point3 at(float t) const { return orig + t * dir; }] *)
Definition at_ (r : ray) (t : float) : point3 :=
  operator_add (orig r) (operator_mul_sv t (dir r)).

(** ** [ray_color] (main.cpp) *)

(** [color(1.0, 1.0, 1.0)] converts three [double] literals to [float]. *)
Definition white : color :=
  vec3_init (F64.to_float (F64.of_int 1)) (F64.to_float (F64.of_int 1))
            (F64.to_float (F64.of_int 1)).

(** [color(0.5f, 0.7f, 1.0f)] *)
Definition skyblue : color := vec3_init f0_5 f0_7 f1.

Definition ray_color (r : ray) : color :=
  let unit_direction := unit_vector (direction r) in
  let t := f0_5 * (y unit_direction + f1) in
  operator_add (operator_mul_sv (f1 - t) white) (operator_mul_sv t skyblue).

Local Close Scope f32_scope.

(** ** [main] (main.cpp) *)

(** The three streams the program writes: [printf] goes to [stdout],
    the progress lines to [cerr], the image to [image.ppm]. *)
Record streams : Type := mk_streams
  { stdout : ostream; cerr : ostream; file : ostream }.

(** [for (int i = 0; i < n; ++i) body(i)], started at [i]. *)
Fixpoint for_up {S : Type} (n : nat) (i : Z) (body : Z -> S -> S) (s : S) : S :=
  match n with
  | O => s
  | Datatypes.S n' => for_up n' (i + 1) body (body i s)
  end.

(** [for (int j = n - 1; j >= 0; --j) body(j)] *)
Fixpoint for_down {S : Type} (n : nat) (body : Z -> S -> S) (s : S) : S :=
  match n with
  | O => s
  | Datatypes.S n' => for_down n' body (body (Z.of_nat n') s)
  end.

Local Open Scope f32_scope.

(** Image *)
Definition aspect_ratio : float := F32.of_int 16 / F32.of_int 9.
Definition image_width : Z := 400.
Definition image_height_cast : option Z :=
  F32.trunc (F32.of_int image_width / aspect_ratio).

(** Camera *)
Definition viewport_height : float := F64.to_float (F64.of_int 2).
Definition viewport_width : float := aspect_ratio * viewport_height.
Definition focal_length : float := F64.to_float (F64.of_int 1).

Definition cam_origin : point3 :=
  vec3_init (F32.of_int 0) (F32.of_int 0) (F32.of_int 0).
Definition horizontal : vec3 :=
  vec3_init viewport_width (F32.of_int 0) (F32.of_int 0).
Definition vertical : vec3 :=
  vec3_init (F32.of_int 0) viewport_height (F32.of_int 0).
Definition lower_left_corner : vec3 :=
  operator_sub
    (operator_sub
       (operator_sub cam_origin (operator_div horizontal (F32.of_int 2)))
       (operator_div vertical (F32.of_int 2)))
    (vec3_init (F32.of_int 0) (F32.of_int 0) focal_length).

(** The body of the inner loop: the colour is computed and then dropped;
    nothing is sent to [file]. *)
Definition pixel (image_height j i : Z) (s : streams) : streams :=
  let u := F32.of_int i / F32.of_int (image_width - 1) in
  let v := F32.of_int j / F32.of_int (image_height - 1) in
  let r := mk_ray cam_origin
             (operator_sub
                (operator_add
                   (operator_add lower_left_corner (operator_mul_sv u horizontal))
                   (operator_mul_sv v vertical))
                cam_origin) in
  let pixel_color := ray_color r in
  s.

(** The body of the outer loop. *)
Definition scanline (image_height j : Z) (s : streams) : streams :=
  let s := mk_streams (stdout s)
             (put (put_int (put (cerr s) (CR ++ "Scanlines remaining: ")) j) " ")
             (file s) in
  for_up (Z.to_nat image_width) 0 (pixel image_height j) s.

Local Close Scope f32_scope.

(** [main]: the streams are empty at start and [image.ppm] opens.
    [None] if the cast that computes [image_height] is undefined. *)
Definition main : option streams :=
  match image_height_cast with
  | None => None
  | Some image_height =>
      let s := mk_streams "" "" "" in
      let s := mk_streams (put (stdout s) (LF ++ LF)) (cerr s) (file s) in
      let s := mk_streams (stdout s) (cerr s)
                 (put (put_int (put (put_int (put (file s) ("P3" ++ LF))
                                       image_width) " ")
                         image_height)
                    (LF ++ "255" ++ LF)) in
      let s := for_down (Z.to_nat image_height) (scanline image_height) s in
      let s := mk_streams (stdout s) (put (cerr s) (LF ++ "Done." ++ LF)) (file s) in
      Some s
  end.

(** ** What the specification asks of the sum

    The header documents [operator+] as "get sum of this and another" and
    the specification as the componentwise sum of the two operands.  The
    two definitions below follow those words; they are what the code is
    compared with. *)

Definition componentwise_sum (a b : vec3) : vec3 :=
  mk_vec3 (F32.add (x a) (x b)) (F32.add (y a) (y b)) (F32.add (z a) (z b)).

(** Linear interpolation between white and sky blue with parameter [t],
    after normalising the direction. *)
Definition ray_color_spec (r : ray) : color :=
  let unit_direction := unit_vector (direction r) in
  let t := F32.mul f0_5 (F32.add (y unit_direction) f1) in
  componentwise_sum (operator_mul_sv (F32.sub f1 t) (mk_vec3 f1 f1 f1))
                    (operator_mul_sv t (mk_vec3 f0_5 f0_7 f1)).

(** ** Vocabulary of the statements *)

(** A vector with small integer components. *)
Definition vecZ (a b c : Z) : vec3 :=
  mk_vec3 (F32.of_int a) (F32.of_int b) (F32.of_int c).

(** Memory before anything is known about it. *)
Definition any_mem : mem := fun _ => S754_nan.

(** Memory that holds [a = (1,2,3)] at address 0 and [b = (4,5,6)] at
    address 3. *)
Definition mem_ab : mem :=
  exec (vec3init 0 (F32.of_int 1) (F32.of_int 2) (F32.of_int 3) ;;
        vec3init 3 (F32.of_int 4) (F32.of_int 5) (F32.of_int 6)) any_mem.

(** Two three-float buffers that share no cell. *)
Definition disjoint (v w : floatv) : Prop := v + 3 <= w \/ w + 3 <= v.

(** The same buffer, or two buffers that share no cell. *)
Definition same_or_disjoint (v w : floatv) : Prop := v = w \/ disjoint v w.

(** The four locals of [testVector] are four separate arrays. *)
Definition separate_locals (av bv cv dv : floatv) : Prop :=
  disjoint av bv /\ disjoint av cv /\ disjoint av dv /\
  disjoint bv cv /\ disjoint bv dv /\ disjoint cv dv.

(** The ray that looks straight up. *)
Definition ray_up : ray := mk_ray (vecZ 0 0 0) (vecZ 0 1 0).

(** Lines of a text file: the pieces between line feeds; a final line
    feed does not open a further line. *)
Fixpoint lines_from (cur : string) (s : string) : list string :=
  match s with
  | EmptyString => match cur with EmptyString => [] | _ => [cur] end
  | String c s' =>
      if Ascii.eqb c (ascii_of_nat 10)
      then cur :: lines_from "" s'
      else lines_from (cur ++ String c "") s'
  end.

Definition lines (s : string) : list string := lines_from "" s.

(** What follows the three header lines of a PPM file. *)
Definition pixel_lines (s : string) : list string := skipn 3 (lines s).

Definition ppm_header : string :=
  "P3" ++ LF ++ "400 225" ++ LF ++ "255" ++ LF.

Local Close Scope string_scope.

(** ** Further vocabulary *)

(** Zero or finite: not an infinity and not NaN. *)
Definition is_finite (f : spec_float) : bool :=
  match f with S754_zero _ | S754_finite _ _ _ => true | _ => false end.

(** The sign bit is clear (NaN carries none). *)
Definition sign_clear (f : spec_float) : bool :=
  match f with
  | S754_zero s | S754_infinity s | S754_finite s _ _ => negb s
  | S754_nan => true
  end.

(** The same float, or two zeros of whatever signs: what [==] sees,
    except that NaN is here taken equal to NaN. *)
Definition eq_mod_zero_sign (a b : spec_float) : bool :=
  match a, b with
  | S754_zero _, S754_zero _ => true
  | S754_infinity s1, S754_infinity s2 => Bool.eqb s1 s2
  | S754_finite s1 m1 e1, S754_finite s2 m2 e2 =>
      Bool.eqb s1 s2 && Pos.eqb m1 m2 && Z.eqb e1 e2
  | S754_nan, S754_nan => true
  | _, _ => false
  end.

Definition vec3_eq_mod_zero_sign (u v : vec3) : bool :=
  eq_mod_zero_sign (x u) (x v) && eq_mod_zero_sign (y u) (y v)
  && eq_mod_zero_sign (z u) (z v).

(** The ray the inner loop of [main] builds for column [i] of row [j]
    (the initialiser of [r]), and the colour it computes from it (the
    initialiser of [pixel_color]). *)
Definition pixel_ray (image_height j i : Z) : ray :=
  let u := F32.div (F32.of_int i) (F32.of_int (image_width - 1)) in
  let v := F32.div (F32.of_int j) (F32.of_int (image_height - 1)) in
  mk_ray cam_origin
    (operator_sub
       (operator_add
          (operator_add lower_left_corner (operator_mul_sv u horizontal))
          (operator_mul_sv v vertical))
       cam_origin).

Definition pixel_color_at (image_height j i : Z) : color :=
  ray_color (pixel_ray image_height j i).

(** Number of line feeds in a text. *)
Fixpoint count_LF (s : string) : nat :=
  match s with
  | EmptyString => O
  | String c s' =>
      if Ascii.eqb c (ascii_of_nat 10) then S (count_LF s') else count_LF s'
  end.

(** The progress text of [n] scan lines, numbered from [n - 1] down to 0. *)
Fixpoint progress (n : nat) : string :=
  match n with
  | O => EmptyString
  | S n' =>
      ((CR ++ "Scanlines remaining: " ++
        NilZero.string_of_int (Z.to_int (Z.of_nat n')) ++ " ") ++ progress n')%string
  end.

(** * Part II: properties *)

(** ** Scalars *)

Example f1_bits : f1 = S754_finite false 8388608 (-23).
Proof. reflexivity. Qed.

Example f0_5_bits : f0_5 = S754_finite false 8388608 (-24).
Proof. reflexivity. Qed.

(** [0.7f] is [0x3F333333], [255.999f] is [0x437FFFBE]. *)
Example f0_7_bits : f0_7 = S754_finite false 0xB33333 (-24).
Proof. reflexivity. Qed.

Example f255_999_bits : f255_999 = S754_finite false 0xFFFFBE (-16).
Proof. reflexivity. Qed.

Example literals_valid :
  forallb F32.valid [f0; f1; f0_5; f0_7; f255_999] = true.
Proof. reflexivity. Qed.

Example trunc_examples :
  F32.trunc (F32.lit 7 2) = Some 3 /\
  F32.trunc (F32.neg (F32.lit 7 2)) = Some (-3) /\
  F32.trunc (F32.of_int 4096) = Some 4096 /\
  F32.trunc (F32.mul (F32.of_int 65536) (F32.of_int 65536)) = None.
Proof. repeat split. Qed.

(** [a == a] holds for every float but NaN. *)
Lemma SFeqb_refl (a : spec_float) : SFeqb a a = negb (is_nan a).
Proof.
  unfold SFeqb, SFcompare.
  destruct a as [s|s| |s m e]; try reflexivity.
  - destruct s; reflexivity.
  - rewrite Z.compare_refl, Pos.compare_cont_refl. destruct s; reflexivity.
Qed.

(** Float addition commutes. *)
Lemma F32_add_comm (a b : float) : F32.add a b = F32.add b a.
Proof.
  unfold F32.add, SFadd.
  destruct a as [sa|sa| |sa ma ea], b as [sb|sb| |sb mb eb];
    try reflexivity; try (destruct sa, sb; reflexivity).
  rewrite Z.min_comm. f_equal. apply Z.add_comm.
Qed.

(** *** Widening [float] to [double] is exact *)

Lemma iter_xO_pow2 (m d : positive) :
  Zpos (Pos.iter xO m d) = Zpos m * 2 ^ Zpos d.
Proof.
  induction d as [|d IH] using Pos.peano_ind.
  - simpl. lia.
  - rewrite Pos.iter_succ, Pos2Z.inj_succ, Z.pow_succ_r by lia.
    rewrite Pos2Z.inj_xO, IH. lia.
Qed.

Lemma digits2_iter_xO (m d : positive) :
  digits2_pos (Pos.iter xO m d) = (digits2_pos m + d)%positive.
Proof.
  induction d as [|d IH] using Pos.peano_ind.
  - simpl. lia.
  - rewrite Pos.iter_succ. simpl. rewrite IH. lia.
Qed.

(** A finite binary32 value keeps its sign; its mantissa is shifted left
    until it has 53 bits and its exponent is lowered by as much. *)
Lemma of_float_finite (s : bool) (m : positive) (e : Z) :
  F32.valid (S754_finite s m e) = true ->
  exists d : positive,
    Zpos d = 53 - Zpos (digits2_pos m) /\
    - 149 <= e <= 104 /\
    F64.of_float (S754_finite s m e)
      = S754_finite s (Pos.iter xO m d) (e - Zpos d).
Proof.
  unfold F32.valid, F32.prec, F32.emax.
  unfold valid_binary, bounded, canonical_mantissa, fexp, emin.
  intros H. apply andb_true_iff in H. destruct H as [Hc Hb].
  apply Z.eqb_eq in Hc. apply Z.leb_le in Hb.
  set (n := Zpos (digits2_pos m)) in *.
  assert (Hn : 0 < n) by (subst n; lia).
  destruct (53 - n) as [|d|d] eqn:Ed; try lia.
  exists d. split; [reflexivity|]. split; [lia|].
  unfold F64.of_float, F64.prec, F64.emax, binary_round, shl_align, fexp, emin.
  fold n.
  replace (Z.max (n + e - 53) (3 - 1024 - 53) - e) with (Zneg d) by lia.
  replace (Z.max (n + e - 53) (3 - 1024 - 53)) with (e - Zpos d) by lia.
  unfold binary_round_aux, shr_fexp, fexp, emin, Zdigits2.
  rewrite digits2_iter_xO.
  replace (Z.max (Z.pos (digits2_pos m + d) + (e - Z.pos d) - 53)
             (3 - 1024 - 53) - (e - Z.pos d)) with 0 by lia.
  cbn [shr shr_record_of_loc shr_m loc_of_shr_record round_nearest_even].
  rewrite digits2_iter_xO.
  replace (Z.max (Z.pos (digits2_pos m + d) + (e - Z.pos d) - 53)
             (3 - 1024 - 53) - (e - Z.pos d)) with 0 by lia.
  cbn [shr shr_record_of_loc shr_m].
  destruct (Z.leb_spec (e - Z.pos d) (1024 - 53)); [reflexivity|lia].
Qed.

(** The [double] a [float] widens to is a valid binary64 value and stands
    for the same number. *)
Lemma of_float_exact (f : float) :
  F32.valid f = true ->
  same_number (F64.of_float f) f = negb (is_nan f) /\
  F64.valid (F64.of_float f) = true.
Proof.
  intros Hv. destruct f as [s|s| |s m e]; try (split; reflexivity);
    try (split; [apply Bool.eqb_reflx|reflexivity]).
  destruct (of_float_finite s m e Hv) as (d & Hd & He & ->).
  split.
  - cbn [same_number is_nan negb]. rewrite Bool.eqb_reflx. cbn [andb].
    apply Z.eqb_eq. rewrite iter_xO_pow2.
    replace (Z.min (e - Z.pos d) e) with (e - Z.pos d) by lia.
    replace (e - Z.pos d - (e - Z.pos d)) with 0 by lia.
    replace (e - (e - Z.pos d)) with (Z.pos d) by lia.
    lia.
  - unfold F64.valid, F64.prec, F64.emax.
    unfold valid_binary, bounded, canonical_mantissa, fexp, emin.
    rewrite digits2_iter_xO. apply andb_true_iff. split.
    + apply Z.eqb_eq. lia.
    + apply Z.leb_le. lia.
Qed.

(** ** The storage of [vec3] *)

Lemma vec3_ctor_on_any (storage : vec3) (xc yc zc : float) :
  vec3_ctor_on storage xc yc zc = mk_vec3 xc yc zc.
Proof. reflexivity. Qed.

Lemma vec3_eta (v : vec3) : mk_vec3 (e0 v) (e1 v) (e2 v) = v.
Proof. destruct v; reflexivity. Qed.

(** Names and indices read the same cell, whatever the vector. *)
Lemma name_index_agree (v : vec3) :
  operator_index v 0 = Some (x v) /\
  operator_index v 1 = Some (y v) /\
  operator_index v 2 = Some (z v).
Proof. repeat split. Qed.

(** A write through an index is seen through the name, and back. *)
Lemma index_write_seen_by_name (v : vec3) (a : float) :
  option_map x (operator_index_set v 0 a) = Some a /\
  option_map y (operator_index_set v 1 a) = Some a /\
  option_map z (operator_index_set v 2 a) = Some a.
Proof. repeat split. Qed.

Lemma name_write_seen_by_index (v : vec3) (a : float) :
  operator_index (set_x v a) 0 = Some a /\
  operator_index (set_y v a) 1 = Some a /\
  operator_index (set_z v a) 2 = Some a.
Proof. repeat split. Qed.

Lemma operator_index_out_of_range (v : vec3) (i : Z) :
  i < 0 \/ 2 < i -> operator_index v i = None.
Proof.
  intros H. destruct i as [|p|p]; try lia; try reflexivity.
  destruct p as [p|p|]; try lia; try reflexivity;
    destruct p; try lia; reflexivity.
Qed.

(** C8: a vector built from three scalars gives them back, component by
    component, through the names [x], [y], [z] and through the indices
    0, 1, 2 alike; the storage the constructor ran on plays no part. *)
Theorem ctor_roundtrip_names_and_indices (storage : vec3) (xc yc zc : float) :
  let v := vec3_ctor_on storage xc yc zc in
  (x v = xc /\ y v = yc /\ z v = zc) /\
  (operator_index v 0 = Some xc /\
   operator_index v 1 = Some yc /\
   operator_index v 2 = Some zc) /\
  (operator_index v 0 = Some (x v) /\
   operator_index v 1 = Some (y v) /\
   operator_index v 2 = Some (z v)) /\
  vec3_init xc yc zc = v.
Proof.
  intros v. subst v. rewrite vec3_ctor_on_any.
  split; [|split; [|split]]; try (repeat split).
Qed.

(** ** Vector arithmetic *)

Local Open Scope f32_scope.

(** [operator+] never reads its right operand. *)
Lemma operator_add_ignores_rh (this rh rh' : vec3) :
  operator_add this rh = operator_add this rh'.
Proof. reflexivity. Qed.

Lemma operator_add_doubles (this rh : vec3) :
  operator_add this rh = componentwise_sum this this.
Proof. reflexivity. Qed.

(** [+=] is the componentwise sum. *)
Lemma operator_add_assign_sum (this rh : vec3) :
  operator_add_assign this rh = componentwise_sum this rh.
Proof. reflexivity. Qed.

(** C1, at [a = (1,2,3)], [b = (4,5,6)]: [a + b] evaluates to [(2,4,6)],
    the double of [a], where the componentwise sum is [(5,7,9)]. *)
Theorem operator_add_not_sum :
  operator_add (vecZ 1 2 3) (vecZ 4 5 6) = vecZ 2 4 6 /\
  componentwise_sum (vecZ 1 2 3) (vecZ 4 5 6) = vecZ 5 7 9 /\
  operator_add (vecZ 1 2 3) (vecZ 4 5 6)
    <> componentwise_sum (vecZ 1 2 3) (vecZ 4 5 6).
Proof.
  split; [|split].
  - vm_compute. reflexivity.
  - vm_compute. reflexivity.
  - vm_compute. intros H. discriminate H.
Qed.

(** C5, at [a = (1,2,3)], [b = (4,5,6)]: [a + b] is [(2,4,6)] and [b + a]
    is [(8,10,12)]; the first components are [6.0] apart. *)
Theorem operator_add_not_commutative :
  operator_add (vecZ 1 2 3) (vecZ 4 5 6) = vecZ 2 4 6 /\
  operator_add (vecZ 4 5 6) (vecZ 1 2 3) = vecZ 8 10 12 /\
  x (operator_add (vecZ 4 5 6) (vecZ 1 2 3))
    - x (operator_add (vecZ 1 2 3) (vecZ 4 5 6)) = F32.of_int 6.
Proof.
  split; [|split]; vm_compute; reflexivity.
Qed.

(** The componentwise sum itself commutes: the defect is in [operator+],
    not in the float addition. *)
Lemma componentwise_sum_comm (a b : vec3) :
  componentwise_sum a b = componentwise_sum b a.
Proof.
  unfold componentwise_sum.
  rewrite (F32_add_comm (x a)), (F32_add_comm (y a)), (F32_add_comm (z a)).
  reflexivity.
Qed.

(** C7: [dot(v, v)] and [v.length_squared()] evaluate one and the same
    float expression, the sum of the products of each component with
    itself; [dot] widens it to [double], which changes nothing else.  The
    two results are the same value, and the comparison [==] of the two
    holds unless that value is NaN. *)
Theorem dot_self_is_length_squared (v : vec3) :
  dot v v = F64.of_float (length_squared v) /\
  length_squared v = x v * x v + y v * y v + z v * z v /\
  SFeqb (dot v v) (F64.of_float (length_squared v)) = negb (is_nan (dot v v)).
Proof.
  split; [reflexivity|split; [reflexivity|]].
  change (F64.of_float (length_squared v)) with (dot v v).
  apply SFeqb_refl.
Qed.

(** The widening is exact: as numbers, the [double] that [dot] returns
    and the [float] that [length_squared] returns are the same. *)
Lemma dot_self_same_number (v : vec3) :
  F32.valid (length_squared v) = true ->
  same_number (dot v v) (length_squared v) = negb (is_nan (length_squared v)).
Proof.
  intros Hv. apply (of_float_exact (length_squared v) Hv).
Qed.

Example dot_self_14 :
  dot (vecZ 1 2 3) (vecZ 1 2 3) = F64.of_int 14 /\
  length_squared (vecZ 1 2 3) = F32.of_int 14.
Proof. split; reflexivity. Qed.

(** C9: [cross(u, v)] is
    [(u.y v.z - u.z v.y, u.z v.x - u.x v.z, u.x v.y - u.y v.x)],
    each product and each difference rounded to [float]. *)
Theorem cross_formula (u v : vec3) :
  cross u v = mk_vec3 (y u * z v - z u * y v)
                      (z u * x v - x u * z v)
                      (x u * y v - y u * x v) /\
  x (cross u v) = y u * z v - z u * y v /\
  y (cross u v) = z u * x v - x u * z v /\
  z (cross u v) = x u * y v - y u * x v.
Proof. repeat split. Qed.

(** The convention is the right-handed one: [x] cross [y] is [z]. *)
Example cross_right_handed :
  cross (vecZ 1 0 0) (vecZ 0 1 0) = vecZ 0 0 1 /\
  cross (vecZ 0 1 0) (vecZ 0 0 1) = vecZ 1 0 0 /\
  cross (vecZ 0 0 1) (vecZ 1 0 0) = vecZ 0 1 0.
Proof. repeat split. Qed.

Local Close Scope f32_scope.

(** ** [write_color] *)

Local Open Scope string_scope.

Example put_int_examples :
  put_int "" 0 = "0" /\ put_int "h=" 225 = "h=225" /\ put_int "" (-17) = "-17".
Proof. repeat split. Qed.

Lemma append_assoc (a b c : string) : a ++ b ++ c = (a ++ b) ++ c.
Proof.
  induction a as [|ch a IH]; simpl; [reflexivity|]. now rewrite IH.
Qed.

(** Scaling [1.0f] by [255.999f] is exact, and the cast drops the
    fraction: 255, not 256. *)
Example scale_one : F32.mul f255_999 f1 = f255_999.
Proof. reflexivity. Qed.

Example trunc_255_999 : F32.trunc f255_999 = Some 255.
Proof. reflexivity. Qed.

(** With [256.0f] as the factor the same component would leave the range. *)
Example trunc_scale_256 : F32.trunc (F32.mul (F32.of_int 256) f1) = Some 256.
Proof. reflexivity. Qed.

(** C10: for the colour [(1.0, 1.0, 1.0)], [write_color] appends the
    line [255 255 255] to the stream: each component is scaled to
    [255.999] and truncated to 255, inside the range 0..255. *)
Theorem write_color_white (out : ostream) :
  write_color out (mk_vec3 f1 f1 f1) = Some (out ++ "255 255 255" ++ LF) /\
  F32.trunc (F32.mul f255_999 f1) = Some 255.
Proof.
  split; [|reflexivity].
  unfold write_color.
  change (F32.trunc (F32.mul f255_999 (x (mk_vec3 f1 f1 f1)))) with (Some 255).
  change (F32.trunc (F32.mul f255_999 (y (mk_vec3 f1 f1 f1)))) with (Some 255).
  change (F32.trunc (F32.mul f255_999 (z (mk_vec3 f1 f1 f1)))) with (Some 255).
  unfold put, put_int.
  change (NilZero.string_of_int (Z.to_int 255)) with "255".
  rewrite <- !append_assoc. reflexivity.
Qed.

(** The [white] of [ray_color] is that colour. *)
Example white_is_ones : white = mk_vec3 f1 f1 f1.
Proof. reflexivity. Qed.

(** No clamping: a component of [2.0] is written as 511. *)
Example write_color_out_of_range :
  write_color "" (vecZ 2 0 (-1)) = Some ("511 0 -255" ++ LF).
Proof. reflexivity. Qed.

Local Close Scope string_scope.

(** ** [ray_color] *)

(** Whatever the ray, the second term of the blend is dropped and the
    first is doubled. *)
Lemma ray_color_doubles_first_term (r : ray) :
  ray_color r =
  let t := F32.mul f0_5 (F32.add (y (unit_vector (direction r))) f1) in
  componentwise_sum (operator_mul_sv (F32.sub f1 t) white)
                    (operator_mul_sv (F32.sub f1 t) white).
Proof. reflexivity. Qed.

(** C3, for the ray from the origin with direction [(0,1,0)]: the
    direction is already a unit vector, [t] is [1.0], and the
    interpolation between white and sky blue is sky blue,
    [(0.5, 0.7, 1.0)]; [ray_color] returns [(0,0,0)]. *)
Theorem ray_color_not_lerp :
  unit_vector (direction ray_up) = vecZ 0 1 0 /\
  F32.mul f0_5 (F32.add (y (unit_vector (direction ray_up))) f1) = f1 /\
  ray_color_spec ray_up = mk_vec3 f0_5 f0_7 f1 /\
  ray_color ray_up = vecZ 0 0 0 /\
  ray_color ray_up <> ray_color_spec ray_up.
Proof.
  repeat split; try (vm_compute; reflexivity).
  vm_compute. intros H. discriminate H.
Qed.

(** Looking straight down, [t] is [0.0] and the result is [(2,2,2)],
    outside the colour range. *)
Example ray_color_down :
  ray_color (mk_ray (vecZ 0 0 0) (vecZ 0 (-1) 0)) = vecZ 2 2 2.
Proof. vm_compute. reflexivity. Qed.

(** ** The function API *)

Section Buffers.

Variable m : mem.

Lemma disjoint_sym v w : disjoint v w -> disjoint w v.
Proof. unfold disjoint; lia. Qed.

Lemma exec_bind {A B} (c : C A) (k : A -> C B) :
  exec (bind c k) m = exec (k (eval c m)) (exec c m).
Proof. unfold exec, eval, bind. destruct (c m); reflexivity. Qed.

Lemma eval_bind {A B} (c : C A) (k : A -> C B) :
  eval (bind c k) m = eval (k (eval c m)) (exec c m).
Proof. unfold exec, eval, bind. destruct (c m); reflexivity. Qed.

Lemma load_store_same v i a : load (store m v i a) v i = a.
Proof. unfold load, store. now rewrite Z.eqb_refl. Qed.

Lemma load_store_other v i a w j :
  w + j <> v + i -> load (store m v i a) w j = load m w j.
Proof.
  intros H. unfold load, store.
  destruct (Z.eqb_spec (w + j) (v + i)); [contradiction|reflexivity].
Qed.

End Buffers.

(** Unfolds a run of the API down to loads and stores and settles every
    address comparison by linear arithmetic. *)
Ltac run :=
  unfold exec, eval, vec3sum, vec3default, vec3init, vec3copy, vec3add,
    bind, ret, rd, wr, load3; cbn [fst snd];
  repeat first
    [ rewrite load_store_same
    | rewrite load_store_other by (unfold disjoint in *; lia) ].

Section Calls.

Variable m : mem.

(** Every function hands back the pointer to its output buffer. *)
Lemma vec3default_ptr v : eval (vec3default v) m = v.
Proof. reflexivity. Qed.

Lemma vec3init_ptr v a b c : eval (vec3init v a b c) m = v.
Proof. reflexivity. Qed.

Lemma vec3copy_ptr v w : eval (vec3copy v w) m = v.
Proof. reflexivity. Qed.

Lemma vec3add_ptr v w : eval (vec3add v w) m = v.
Proof. reflexivity. Qed.

Lemma vec3sum_ptr v l r : eval (vec3sum v l r) m = v.
Proof. reflexivity. Qed.

(** What each function leaves in its output buffer, in terms of the
    value type. *)
Lemma vec3default_value v :
  load3 (exec (vec3default v) m) v = vec3_default.
Proof. run. reflexivity. Qed.

Lemma vec3init_value v a b c :
  load3 (exec (vec3init v a b c) m) v = vec3_init a b c.
Proof. run. reflexivity. Qed.

Lemma vec3copy_value v w :
  same_or_disjoint v w ->
  load3 (exec (vec3copy v w) m) v = vec3_copy (load3 m w).
Proof. intros [->|H]; run; reflexivity. Qed.

Lemma vec3add_value v w :
  same_or_disjoint v w ->
  load3 (exec (vec3add v w) m) v = operator_add_assign (load3 m v) (load3 m w).
Proof. intros [->|H]; run; reflexivity. Qed.

(** [vec3sum] reads both operands before it writes: it yields the sum
    however the three buffers overlap. *)
Lemma vec3sum_value v l r :
  load3 (exec (vec3sum v l r) m) v = componentwise_sum (load3 m l) (load3 m r).
Proof. run. reflexivity. Qed.

(** Frame: a buffer that shares no cell with the output is untouched. *)
Lemma vec3default_frame v u :
  disjoint v u -> load3 (exec (vec3default v) m) u = load3 m u.
Proof. intros H. run. reflexivity. Qed.

Lemma vec3init_frame v a b c u :
  disjoint v u -> load3 (exec (vec3init v a b c) m) u = load3 m u.
Proof. intros H. run. reflexivity. Qed.

Lemma vec3copy_frame v w u :
  disjoint v u -> load3 (exec (vec3copy v w) m) u = load3 m u.
Proof. intros H. run. reflexivity. Qed.

Lemma vec3add_frame v w u :
  disjoint v u -> load3 (exec (vec3add v w) m) u = load3 m u.
Proof. intros H. run. reflexivity. Qed.

Lemma vec3sum_frame v l r u :
  disjoint v u -> load3 (exec (vec3sum v l r) m) u = load3 m u.
Proof. intros H. run. reflexivity. Qed.

End Calls.

(** A copy onto a buffer that overlaps its source in part is not a copy:
    the cells already written are read again. *)
Example vec3copy_partial_overlap :
  load3 (exec (vec3copy 1 0) mem_ab) 1 = vecZ 1 1 1 /\
  vec3_copy (load3 mem_ab 0) = vecZ 1 2 3.
Proof. split; vm_compute; reflexivity. Qed.

Create Rewrite HintDb buffers.
#[local] Hint Rewrite vec3default_ptr vec3init_ptr vec3copy_ptr vec3add_ptr
  vec3sum_ptr : buffers.
#[local] Hint Rewrite vec3default_value vec3init_value vec3sum_value : buffers.
#[local] Hint Rewrite @exec_bind @eval_bind : buffers.

Ltac separate :=
  unfold same_or_disjoint, disjoint in *; lia.

Ltac step_buffers :=
  repeat first
    [ progress autorewrite with buffers
    | rewrite vec3copy_value by separate
    | rewrite vec3add_value by separate
    | rewrite vec3default_frame by separate
    | rewrite vec3init_frame by separate
    | rewrite vec3copy_frame by separate
    | rewrite vec3add_frame by separate
    | rewrite vec3sum_frame by separate ].

Example testVector_arrays_run :
  load3 (exec (testVector_arrays 0 3 6 9) any_mem) 9 = vecZ 9 12 15.
Proof. vm_compute. reflexivity. Qed.

Example testVector_run :
  eval (testVector 0 3 6 9) any_mem =
  (vecZ 4 5 6, vecZ 1 2 3, vecZ 4 5 6, vecZ 16 20 24).
Proof. vm_compute. reflexivity. Qed.

(** The values the comments of [testVector] announce after the fifth and
    the sixth call. *)
Lemma testVector_arrays_prefixes (m : mem) (av bv cv dv : floatv) :
  separate_locals av bv cv dv ->
  let after_copy :=
    exec (vec3default av ;;
          vec3init bv (F32.of_int 1) (F32.of_int 2) (F32.of_int 3) ;;
          p <- vec3init cv (F32.of_int 4) (F32.of_int 5) (F32.of_int 6) ;;
          vec3copy dv p ;;
          vec3copy av dv) m in
  load3 (exec (vec3add dv bv) after_copy) dv = vecZ 5 7 9 /\
  load3 (exec (vec3add dv bv ;; vec3sum dv bv bv) after_copy) dv = vecZ 2 4 6.
Proof.
  intros (Hab & Hac & Had & Hbc & Hbd & Hcd) after_copy. subst after_copy.
  split; step_buffers; reflexivity.
Qed.

(** C6: whatever the memory held, once the seven calls on the four
    separate buffers are done [d] holds [(9, 12, 15)] (and [a], [b], [c]
    hold [(4,5,6)], [(1,2,3)], [(4,5,6)]); the last call returns [dv]. *)
Theorem testVector_arrays_final (m : mem) (av bv cv dv : floatv) :
  separate_locals av bv cv dv ->
  let m' := exec (testVector_arrays av bv cv dv) m in
  load3 m' dv = vecZ 9 12 15 /\
  load3 m' av = vecZ 4 5 6 /\
  load3 m' bv = vecZ 1 2 3 /\
  load3 m' cv = vecZ 4 5 6 /\
  eval (testVector_arrays av bv cv dv) m = dv.
Proof.
  intros (Hab & Hac & Had & Hbc & Hbd & Hcd) m'. subst m'.
  unfold testVector_arrays.
  repeat split; step_buffers; reflexivity.
Qed.

Lemma testVector_arrays_final_witness :
  separate_locals 0 3 6 9 /\
  load3 (exec (testVector_arrays 0 3 6 9) any_mem) 9 = vecZ 9 12 15.
Proof.
  assert (H : separate_locals 0 3 6 9)
    by (unfold separate_locals, disjoint; lia).
  split; [exact H|].
  exact (proj1 (testVector_arrays_final any_mem 0 3 6 9 H)).
Defined.

(** The operator half of [testVector] announces the same values as the
    function half; it ends with [d = (16, 20, 24)]. *)
Lemma testVector_operators_final (m : mem) (cv : floatv) :
  load3 m cv = vecZ 4 5 6 ->
  eval (testVector_operators cv) m
    = (vecZ 4 5 6, vecZ 1 2 3, vecZ 4 5 6, vecZ 16 20 24).
Proof.
  intros H. unfold testVector_operators, vec3_of_array.
  unfold eval, bind, ret, rd; cbn [fst snd].
  injection H as H0 H1 H2. rewrite H0, H1, H2. reflexivity.
Qed.

(** C4, for [a = (1,2,3)] and [b = (4,5,6)]: [vec3sum(out, a, b)] writes
    [(5,7,9)] and the value [a + b] of the operator API is [(2,4,6)]. *)
Theorem vec3sum_differs_from_operator_add :
  load3 mem_ab 0 = vecZ 1 2 3 /\
  load3 mem_ab 3 = vecZ 4 5 6 /\
  load3 (exec (vec3sum 6 0 3) mem_ab) 6 = vecZ 5 7 9 /\
  operator_add (load3 mem_ab 0) (load3 mem_ab 3) = vecZ 2 4 6 /\
  load3 (exec (vec3sum 6 0 3) mem_ab) 6
    <> operator_add (load3 mem_ab 0) (load3 mem_ab 3).
Proof.
  repeat split; try (vm_compute; reflexivity).
  vm_compute. intros H. discriminate H.
Qed.

(** ** [main] *)

Example image_height_is_225 : image_height_cast = Some 225.
Proof. vm_compute. reflexivity. Qed.

Example lines_ex :
  lines ("ab" ++ LF ++ "c d" ++ LF)%string = ["ab"; "c d"]%string.
Proof. reflexivity. Qed.

Lemma pixel_id (h j i : Z) (s : streams) : pixel h j i s = s.
Proof. reflexivity. Qed.

Lemma for_up_id {S : Type} (body : Z -> S -> S) :
  (forall i s, body i s = s) ->
  forall n i s, for_up n i body s = s.
Proof.
  intros Hbody n. induction n as [|n IH]; intros i s; simpl.
  - reflexivity.
  - rewrite Hbody. apply IH.
Qed.

Lemma for_down_inv {S A : Type} (obs : S -> A) (body : Z -> S -> S) :
  (forall j s, obs (body j s) = obs s) ->
  forall n s, obs (for_down n body s) = obs s.
Proof.
  intros Hbody n. induction n as [|n IH]; intros s; simpl.
  - reflexivity.
  - rewrite IH. apply Hbody.
Qed.

(** A scan line adds to [cerr] only. *)
Lemma scanline_file (h j : Z) (s : streams) :
  file (scanline h j s) = file s.
Proof.
  unfold scanline. rewrite for_up_id by (apply pixel_id). reflexivity.
Qed.

Lemma scanline_stdout (h j : Z) (s : streams) :
  stdout (scanline h j s) = stdout s.
Proof.
  unfold scanline. rewrite for_up_id by (apply pixel_id). reflexivity.
Qed.

(** [main] runs to completion and [image.ppm] holds the header alone. *)
Lemma main_file : option_map file main = Some ppm_header.
Proof.
  unfold main. rewrite image_height_is_225. cbv zeta.
  unfold option_map. cbn [file stdout cerr].
  rewrite (for_down_inv file) by (apply scanline_file).
  reflexivity.
Qed.

(** C2: the file [main] writes consists of the three header lines [P3],
    [400 225], [255] and of nothing else: no pixel line follows, where
    the header announces 400 x 225 of them. *)
Theorem main_writes_header_only :
  option_map (fun s => lines (file s)) main
    = Some ["P3"; "400 225"; "255"]%string /\
  option_map (fun s => pixel_lines (file s)) main = Some [] /\
  option_map (fun s => Z.of_nat (List.length (pixel_lines (file s)))) main
    <> Some (400 * 225).
Proof.
  pose proof main_file as H.
  destruct main as [s|]; [|discriminate H].
  injection H as H. cbn [option_map]. rewrite H.
  repeat split. discriminate.
Qed.

(** * Part III: further properties of the code *)

(** ** Float arithmetic *)

Lemma F32_mul_comm (a b : float) : F32.mul a b = F32.mul b a.
Proof.
  unfold F32.mul, SFmul.
  destruct a as [sa|sa| |sa ma ea], b as [sb|sb| |sb mb eb];
    try reflexivity; try (rewrite xorb_comm; reflexivity).
  rewrite xorb_comm, Pos.mul_comm, Z.add_comm. reflexivity.
Qed.

Lemma F32_neg_involutive (a : float) : F32.neg (F32.neg a) = a.
Proof. destruct a; simpl; rewrite ?negb_involutive; reflexivity. Qed.

(** Rounding acts on the magnitude; the sign is carried along. *)
Lemma binary_round_aux_opp p em s m e l :
  binary_round_aux p em (negb s) m e l = SFopp (binary_round_aux p em s m e l).
Proof.
  unfold binary_round_aux.
  destruct (shr_fexp p em m e l) as [mrs' e'].
  destruct (shr_fexp p em _ e' loc_Exact) as [mrs'' e''].
  destruct (shr_m mrs''); try reflexivity.
  destruct (e'' <=? em - p); reflexivity.
Qed.

Lemma binary_round_opp p em s m e :
  binary_round p em (negb s) m e = SFopp (binary_round p em s m e).
Proof.
  unfold binary_round. destruct (shl_align m e _) as [mz ez].
  apply binary_round_aux_opp.
Qed.

Lemma binary_round_aux_sign p em m e l :
  sign_clear (binary_round_aux p em false m e l) = true.
Proof.
  unfold binary_round_aux.
  destruct (shr_fexp p em m e l) as [mrs' e'].
  destruct (shr_fexp p em _ e' loc_Exact) as [mrs'' e''].
  destruct (shr_m mrs''); try reflexivity.
  destruct (e'' <=? em - p); reflexivity.
Qed.

Lemma binary_normalize_opp p em n e :
  n <> 0 ->
  binary_normalize p em (- n) e false = SFopp (binary_normalize p em n e false).
Proof.
  intros Hn. destruct n as [|q|q]; [contradiction| |]; simpl.
  - apply (binary_round_opp p em false).
  - rewrite (binary_round_opp p em false). simpl negb.
    symmetry. apply F32_neg_involutive.
Qed.

Lemma eq_mod_zero_sign_refl a : eq_mod_zero_sign a a = true.
Proof.
  destruct a as [s|s| |s m e]; simpl; try reflexivity.
  - apply eqb_reflx.
  - rewrite eqb_reflx, Pos.eqb_refl, Z.eqb_refl. reflexivity.
Qed.

(** [a - b] is the opposite of [b - a], the sign of a zero result apart. *)
Lemma F32_sub_antisym (a b : float) :
  eq_mod_zero_sign (F32.sub a b) (F32.neg (F32.sub b a)) = true.
Proof.
  unfold F32.sub, F32.neg, SFsub.
  destruct a as [sa|sa| |sa ma ea], b as [sb|sb| |sb mb eb];
    try reflexivity;
    try (destruct sa, sb; reflexivity);
    try (destruct sa; reflexivity);
    try (destruct sb; reflexivity);
    try (simpl; rewrite ?negb_involutive, ?eqb_reflx, ?Pos.eqb_refl,
           ?Z.eqb_refl; reflexivity).
  rewrite (Z.min_comm eb ea).
  set (ez := Z.min ea eb).
  set (A := cond_Zopp sa (Z.pos (fst (shl_align ma ea ez)))).
  set (B := cond_Zopp sb (Z.pos (fst (shl_align mb eb ez)))).
  destruct (Z.eq_dec (B - A) 0) as [H0|H0].
  - replace (A - B) with 0 by lia. rewrite H0. reflexivity.
  - replace (A - B) with (- (B - A)) by lia.
    rewrite binary_normalize_opp by exact H0.
    apply eq_mod_zero_sign_refl.
Qed.

(** Subtracting [+0] changes nothing, not even the sign of a zero. *)
Lemma F32_sub_zero (t : float) : F32.sub t (S754_zero false) = t.
Proof. destruct t as [s|s| |s m e]; try reflexivity. destruct s; reflexivity. Qed.

Lemma F32_sub_diag (t : float) : is_finite t = true -> F32.sub t t = f0.
Proof.
  destruct t as [s|s| |s m e]; intros Ht; try discriminate.
  - destruct s; reflexivity.
  - unfold F32.sub, SFsub. rewrite Z.sub_diag. reflexivity.
Qed.

Lemma mul_inf_not_finite (s : bool) (c : float) :
  is_finite (F32.mul (S754_infinity s) c) = false.
Proof. destruct c; reflexivity. Qed.

Lemma mul_self_sign (a : float) : sign_clear (F32.mul a a) = true.
Proof.
  unfold F32.mul, SFmul. destruct a as [s|s| |s m e]; try reflexivity;
    try (simpl; now rewrite xorb_nilpotent).
  rewrite xorb_nilpotent. apply binary_round_aux_sign.
Qed.

Lemma add_sign (a b : float) :
  sign_clear a = true -> sign_clear b = true -> sign_clear (F32.add a b) = true.
Proof.
  unfold F32.add, SFadd.
  destruct a as [sa|sa| |sa ma ea], b as [sb|sb| |sb mb eb]; simpl;
    intros Ha Hb; try reflexivity; try assumption;
    apply negb_true_iff in Ha; apply negb_true_iff in Hb; subst;
    try reflexivity.
  cbn [cond_Zopp Z.add binary_normalize].
  unfold binary_round. destruct (shl_align _ _ _).
  apply binary_round_aux_sign.
Qed.

Lemma sqrt_sign (a : float) :
  sign_clear a = true -> sign_clear (F32.sqrt a) = true.
Proof.
  unfold F32.sqrt, SFsqrt. destruct a as [s|s| |s m e]; simpl; intros Ha;
    try assumption; try reflexivity.
  - destruct s; [discriminate|reflexivity].
  - destruct s; [reflexivity|].
    destruct (SFsqrt_core_binary _ _ _ _) as [[mz ez] lz].
    apply binary_round_aux_sign.
Qed.

(** ** The function API, call by call *)

(** X1: [vec3sum] returns its output pointer and leaves there the
    componentwise sum of what the two operand buffers held before the
    call, however the three buffers overlap or coincide. *)
Theorem vec3sum_any_aliasing (m : mem) (v l r : floatv) :
  eval (vec3sum v l r) m = v /\
  load3 (exec (vec3sum v l r) m) v = componentwise_sum (load3 m l) (load3 m r).
Proof. split; [reflexivity|apply vec3sum_value]. Qed.

(** X2: the two sums that do add their operands commute:
    [vec3sum(v, l, r)] and [vec3sum(v, r, l)] leave the same vector, and
    [a += b] gives [a] the value [b += a] gives [b]. *)
Theorem sums_commute (m : mem) (v l r : floatv) (a b : vec3) :
  load3 (exec (vec3sum v l r) m) v = load3 (exec (vec3sum v r l) m) v /\
  operator_add_assign a b = operator_add_assign b a.
Proof.
  split.
  - rewrite !vec3sum_value. apply componentwise_sum_comm.
  - rewrite !operator_add_assign_sum. apply componentwise_sum_comm.
Qed.

(** X3: on two buffers that coincide or share no cell, [vec3add] does
    what [+=] does on values, returns its first pointer, and leaves a
    separate right operand as it was. *)
Theorem vec3add_is_add_assign (m : mem) (v w : floatv) :
  same_or_disjoint v w ->
  eval (vec3add v w) m = v /\
  load3 (exec (vec3add v w) m) v = operator_add_assign (load3 m v) (load3 m w) /\
  (v = w \/ load3 (exec (vec3add v w) m) w = load3 m w).
Proof.
  intros H. split; [reflexivity|]. split.
  - apply vec3add_value, H.
  - destruct H as [H|H]; [left; exact H|right; apply vec3add_frame, H].
Qed.

Lemma vec3add_is_add_assign_witness :
  same_or_disjoint 0 0 /\
  load3 (exec (vec3add 0 0) mem_ab) 0 = vecZ 2 4 6.
Proof.
  assert (H : same_or_disjoint 0 0) by (left; reflexivity).
  split; [exact H|].
  exact (proj1 (proj2 (vec3add_is_add_assign mem_ab 0 0 H))).
Defined.

(** X4: on two buffers that coincide or share no cell, [vec3copy] leaves
    in the output what the source held, returns the output pointer and
    does not change the source. *)
Theorem vec3copy_is_copy (m : mem) (v w : floatv) :
  same_or_disjoint v w ->
  eval (vec3copy v w) m = v /\
  load3 (exec (vec3copy v w) m) v = load3 m w /\
  load3 (exec (vec3copy v w) m) w = load3 m w.
Proof.
  intros H. split; [reflexivity|].
  assert (Hv : load3 (exec (vec3copy v w) m) v = load3 m w).
  { rewrite vec3copy_value by exact H. unfold vec3_copy. apply vec3_eta. }
  split; [exact Hv|].
  destruct H as [->|Hd]; [exact Hv|]. apply vec3copy_frame, Hd.
Qed.

Lemma vec3copy_is_copy_witness :
  same_or_disjoint 6 0 /\
  load3 (exec (vec3copy 6 0) mem_ab) 6 = vecZ 1 2 3.
Proof.
  assert (H : same_or_disjoint 6 0) by (right; unfold disjoint; lia).
  split; [exact H|].
  exact (proj1 (proj2 (vec3copy_is_copy mem_ab 6 0 H))).
Defined.

Ltac outside :=
  unfold exec, eval, vec3sum, vec3default, vec3init, vec3copy, vec3add,
    bind, ret, rd, wr, store; cbn [fst snd];
  repeat match goal with
         | |- context [Z.eqb ?a ?b] =>
             destruct (Z.eqb_spec a b); [lia|]
         end;
  reflexivity.

(** X5: none of the five functions writes outside the three cells of its
    output buffer: a cell at an address below [v] or from [v + 3] on holds
    after the call what it held before. *)
Theorem api_writes_output_buffer_only
  (m : mem) (q v w l r : floatv) (a b c : float) :
  q < v \/ v + 3 <= q ->
  exec (vec3default v) m q = m q /\
  exec (vec3init v a b c) m q = m q /\
  exec (vec3copy v w) m q = m q /\
  exec (vec3add v w) m q = m q /\
  exec (vec3sum v l r) m q = m q.
Proof.
  intros H. repeat split; outside.
Qed.

Lemma api_writes_output_buffer_only_witness :
  (3 < 0 \/ 0 + 3 <= 3) /\
  exec (vec3add 0 3) mem_ab 3 = mem_ab 3.
Proof.
  assert (H : 3 < 0 \/ 0 + 3 <= 3) by lia.
  split; [exact H|].
  exact (proj1 (proj2 (proj2 (proj2
    (api_writes_output_buffer_only mem_ab 3 0 3 0 0 f0 f0 f0 H))))).
Defined.

(** X6: a buffer filled by [vec3init] (or [vec3default]) and read back
    by the array constructor [vec3(float3 const)] yields the vector the
    component constructor (or the default constructor) builds. *)
Theorem init_then_array_ctor (m : mem) (v : floatv) (a b c : float) :
  eval (vec3init v a b c ;; vec3_of_array v) m = vec3_init a b c /\
  eval (vec3default v ;; vec3_of_array v) m = vec3_default.
Proof.
  split; cbv [eval bind vec3_of_array vec3init vec3default ret rd wr fst snd];
    repeat first
      [ rewrite load_store_same
      | rewrite load_store_other by lia ]; reflexivity.
Qed.

Lemma testVector_arrays_leaves_c (m : mem) (av bv cv dv : floatv) :
  separate_locals av bv cv dv ->
  load3 (exec (testVector_arrays av bv cv dv) m) cv = vecZ 4 5 6.
Proof.
  intros (Hab & Hac & Had & Hbc & Hbd & Hcd).
  unfold testVector_arrays. step_buffers. reflexivity.
Qed.

(** X7: whatever the memory held, [testVector] on four separate local
    arrays ends with [a = (4,5,6)], [b = (1,2,3)], [c = (4,5,6)] and
    [d = (16,20,24)] in its operator half. *)
Theorem testVector_final (m : mem) (av bv cv dv : floatv) :
  separate_locals av bv cv dv ->
  eval (testVector av bv cv dv) m
    = (vecZ 4 5 6, vecZ 1 2 3, vecZ 4 5 6, vecZ 16 20 24).
Proof.
  intros H. unfold testVector. rewrite eval_bind.
  apply testVector_operators_final.
  apply testVector_arrays_leaves_c, H.
Qed.

Lemma testVector_final_witness :
  separate_locals 0 3 6 9 /\
  eval (testVector 0 3 6 9) any_mem
    = (vecZ 4 5 6, vecZ 1 2 3, vecZ 4 5 6, vecZ 16 20 24).
Proof.
  assert (H : separate_locals 0 3 6 9)
    by (unfold separate_locals, disjoint; lia).
  split; [exact H|].
  exact (testVector_final any_mem 0 3 6 9 H).
Defined.

(** ** Indexed access *)

(** X8: a write through [operator[]] at a valid index is read back at
    that index and leaves the other components alone; the write is only
    defined for the indices 0, 1 and 2. *)
Theorem index_set_get (v v' : vec3) (i j : Z) (a : float) :
  operator_index_set v i a = Some v' ->
  j <> i ->
  0 <= i <= 2 /\
  operator_index v' i = Some a /\
  operator_index v' j = operator_index v j.
Proof.
  intros Hset Hj.
  destruct i as [|[[|[]|]|[|[]|]|]|]; simpl in Hset; try discriminate;
    injection Hset as <-; (split; [lia|]); (split; [reflexivity|]);
    destruct j as [|[[|[]|]|[|[]|]|]|]; try reflexivity; contradiction.
Qed.

Lemma index_set_get_witness :
  operator_index_set (vecZ 1 2 3) 1 f0 = Some (mk_vec3 f1 f0 (F32.of_int 3)) /\
  2 <> 1 /\
  operator_index (mk_vec3 f1 f0 (F32.of_int 3)) 2 = operator_index (vecZ 1 2 3) 2.
Proof.
  assert (H1 : operator_index_set (vecZ 1 2 3) 1 f0
               = Some (mk_vec3 f1 f0 (F32.of_int 3))) by reflexivity.
  assert (H2 : 2 <> 1) by lia.
  split; [exact H1|]. split; [exact H2|].
  exact (proj2 (proj2 (index_set_get _ _ 1 2 f0 H1 H2))).
Defined.

(** ** Operators on values *)

(** X9: negating a vector twice gives the vector back, bit for bit. *)
Theorem operator_neg_involutive (v : vec3) :
  operator_neg (operator_neg v) = v.
Proof.
  destruct v as [a b c]. unfold operator_neg, vec3_init, vec3_ctor_on.
  cbn [e0 e1 e2 set_x set_y set_z].
  now rewrite !F32_neg_involutive.
Qed.

(** X10: the dot product and the componentwise product do not depend on
    the order of their operands. *)
Theorem products_commute (u v : vec3) :
  dot u v = dot v u /\ operator_mul_vv u v = operator_mul_vv v u.
Proof.
  unfold dot, operator_mul_vv.
  rewrite (F32_mul_comm (e0 u)), (F32_mul_comm (e1 u)), (F32_mul_comm (e2 u)).
  split; reflexivity.
Qed.

(** X11: [cross(u, v)] is [-cross(v, u)] in every component, except
    that a zero component may differ in sign. *)
Theorem cross_anticommutative (u v : vec3) :
  vec3_eq_mod_zero_sign (cross u v) (operator_neg (cross v u)) = true.
Proof.
  unfold vec3_eq_mod_zero_sign, cross, operator_neg, vec3_init, vec3_ctor_on.
  cbn [x y z e0 e1 e2 set_x set_y set_z].
  rewrite (F32_mul_comm (e1 v) (e2 u)), (F32_mul_comm (e2 v) (e1 u)),
    (F32_mul_comm (e2 v) (e0 u)), (F32_mul_comm (e0 v) (e2 u)),
    (F32_mul_comm (e0 v) (e1 u)), (F32_mul_comm (e1 v) (e0 u)).
  rewrite !F32_sub_antisym. reflexivity.
Qed.

(** The sign of a zero can indeed differ. *)
Example cross_self_zero_signs :
  cross (vecZ 1 2 3) (vecZ 1 2 3) = mk_vec3 f0 f0 f0 /\
  operator_neg (cross (vecZ 1 2 3) (vecZ 1 2 3))
    = mk_vec3 (S754_zero true) (S754_zero true) (S754_zero true).
Proof. split; reflexivity. Qed.

(** X12: scaling in place and scaling into a new value agree:
    [v *= t] gives [v] the value of [v * t] and of [t * v], and [v /= t]
    the value of [v / t]. *)
Theorem scaling_in_place_agrees (v : vec3) (t : float) :
  operator_mul_assign v t = operator_mul_vs v t /\
  operator_mul_assign v t = operator_mul_sv t v /\
  operator_div_assign v t = operator_div v t.
Proof.
  unfold operator_div_assign, operator_div, operator_mul_assign,
    operator_mul_vs, operator_mul_sv.
  rewrite !(F32_mul_comm _ (e0 v)), !(F32_mul_comm _ (e1 v)),
    !(F32_mul_comm _ (e2 v)).
  repeat split.
Qed.

(** X13: dividing a vector by zero, of either sign, is not trapped and
    never yields a finite component: each one is an infinity or NaN. *)
Theorem division_by_zero_not_finite (v : vec3) (s : bool) :
  let q := operator_div v (S754_zero s) in
  is_finite (x q) = false /\ is_finite (y q) = false /\ is_finite (z q) = false.
Proof.
  unfold operator_div, operator_mul_sv.
  change (F32.div (F32.of_int 1) (S754_zero s))
    with (S754_infinity (xorb false s)).
  cbn [x y z e0 e1 e2 vec3_init vec3_ctor_on set_x set_y set_z].
  repeat split; apply mul_inf_not_finite.
Qed.

(** X14: the unit vector of a zero vector, whatever the signs of its
    zeros, has three NaN components. *)
Theorem unit_vector_zero (s0 s1 s2 : bool) :
  unit_vector (mk_vec3 (S754_zero s0) (S754_zero s1) (S754_zero s2))
    = mk_vec3 S754_nan S754_nan S754_nan.
Proof. destruct s0, s1, s2; reflexivity. Qed.

(** X15: [length_squared] and [length] are never negative: for every
    vector the result is NaN or has its sign bit clear (so it is never
    [-0] either). *)
Theorem length_never_negative (v : vec3) :
  sign_clear (length_squared v) = true /\ sign_clear (length v) = true.
Proof.
  assert (H : sign_clear (length_squared v) = true).
  { unfold length_squared. repeat apply add_sign; apply mul_self_sign. }
  split; [exact H|]. apply sqrt_sign, H.
Qed.

(** X16: subtracting the zero vector, such as the camera origin of
    [main], gives the left operand back, bit for bit. *)
Theorem sub_origin_id (v : vec3) :
  operator_sub v cam_origin = v /\ operator_sub v vec3_default = v.
Proof.
  destruct v as [a b c].
  unfold operator_sub, cam_origin, vec3_default, vec3_init, vec3_ctor_on.
  cbn [e0 e1 e2 set_x set_y set_z].
  change (F32.of_int 0) with (S754_zero false).
  change f0 with (S754_zero false).
  rewrite !F32_sub_zero. split; reflexivity.
Qed.

(** X17: a vector with three finite components minus itself is the zero
    vector the default constructor builds. *)
Theorem sub_self (v : vec3) :
  is_finite (x v) = true -> is_finite (y v) = true -> is_finite (z v) = true ->
  operator_sub v v = vec3_default.
Proof.
  destruct v as [a b c]. cbn [x y z e0 e1 e2]. intros Ha Hb Hc.
  unfold operator_sub, vec3_default, vec3_init, vec3_ctor_on.
  cbn [e0 e1 e2 set_x set_y set_z]. now rewrite !F32_sub_diag.
Qed.

Lemma sub_self_witness :
  is_finite (x (vecZ 1 2 3)) = true /\
  operator_sub (vecZ 1 2 3) (vecZ 1 2 3) = vec3_default.
Proof.
  split; [reflexivity|].
  exact (sub_self (vecZ 1 2 3) eq_refl eq_refl eq_refl).
Defined.

(** With an infinite component the difference is NaN there. *)
Example sub_self_infinite :
  operator_sub (mk_vec3 (S754_infinity false) f1 f1)
               (mk_vec3 (S754_infinity false) f1 f1)
    = mk_vec3 S754_nan f0 f0.
Proof. reflexivity. Qed.

(** X18: when the float value [dot] computes is a valid binary32 value,
    the [double] it returns is a valid binary64 value that stands for the
    same number (and is NaN exactly when the float is). *)
Theorem dot_widening_exact (u v : vec3) :
  let p := F32.add (F32.add (F32.mul (e0 u) (e0 v)) (F32.mul (e1 u) (e1 v)))
                   (F32.mul (e2 u) (e2 v)) in
  F32.valid p = true ->
  dot u v = F64.of_float p /\
  same_number (dot u v) p = negb (is_nan p) /\
  F64.valid (dot u v) = true.
Proof.
  intros p Hp. split; [reflexivity|]. apply (of_float_exact p Hp).
Qed.

Lemma dot_widening_exact_witness :
  F32.valid (F32.of_int 32) = true /\
  same_number (dot (vecZ 1 2 3) (vecZ 4 5 6)) (F32.of_int 32) = true.
Proof.
  assert (H : F32.valid (F32.of_int 32) = true) by reflexivity.
  split; [exact H|].
  exact (proj1 (proj2 (dot_widening_exact (vecZ 1 2 3) (vecZ 4 5 6) H))).
Defined.

(** ** Rays and colours *)

(** X19: whatever the ray, the colour [ray_color] returns has three
    equal components: it is a grey, never a blue. *)
Theorem ray_color_grey (r : ray) :
  x (ray_color r) = y (ray_color r) /\ y (ray_color r) = z (ray_color r).
Proof. split; reflexivity. Qed.

(** X20: [ray::at] depends neither on its parameter nor on the
    direction of the ray: it returns the origin added to itself. *)
Theorem at_ignores_t_and_direction (r : ray) (t t' : float) (d' : vec3) :
  at_ r t = at_ (mk_ray (orig r) d') t' /\
  at_ r t = componentwise_sum (orig r) (orig r).
Proof. split; reflexivity. Qed.

(** X21: the ray [main] builds does not depend on the pixel: for every
    column, row and image height its direction is the lower left corner
    added to itself twice over, so every pixel gets the same colour. *)
Theorem pixel_ray_constant (h j i : Z) :
  pixel_ray h j i = pixel_ray 0 0 0 /\
  direction (pixel_ray h j i)
    = componentwise_sum (componentwise_sum lower_left_corner lower_left_corner)
                        (componentwise_sum lower_left_corner lower_left_corner) /\
  pixel_color_at h j i = pixel_color_at 0 0 0.
Proof.
  assert (H : pixel_ray h j i = pixel_ray 0 0 0) by reflexivity.
  split; [exact H|]. split.
  - unfold pixel_ray, direction; cbn [dir].
    unfold operator_sub, cam_origin, vec3_init, vec3_ctor_on.
    cbn [e0 e1 e2 set_x set_y set_z].
    change (F32.of_int 0) with (S754_zero false).
    rewrite !F32_sub_zero. reflexivity.
  - unfold pixel_color_at. now rewrite H.
Qed.

Example pixel_color_value :
  pixel_color_at 225 224 0
    = mk_vec3 (S754_finite false 12081310 (-23))
              (S754_finite false 12081310 (-23))
              (S754_finite false 12081310 (-23)).
Proof. vm_compute. reflexivity. Qed.

(** ** [write_color] and the streams of [main] *)

Lemma scaled_not_finite (c : float) :
  is_finite c = false -> F32.trunc (F32.mul f255_999 c) = None.
Proof. destruct c; try discriminate; reflexivity. Qed.

(** X22: when a component of the colour is an infinity or NaN, one of
    the casts to [int] in [write_color] is undefined. *)
Theorem write_color_undefined (out : ostream) (c : color) :
  is_finite (x c) && is_finite (y c) && is_finite (z c) = false ->
  write_color out c = None.
Proof.
  intros H. unfold write_color.
  destruct (is_finite (x c)) eqn:Hx.
  - destruct (is_finite (y c)) eqn:Hy.
    + simpl in H. rewrite (scaled_not_finite (z c) H).
      destruct (F32.trunc _); [destruct (F32.trunc _)|]; reflexivity.
    + rewrite (scaled_not_finite (y c) Hy).
      destruct (F32.trunc _); reflexivity.
  - rewrite (scaled_not_finite (x c) Hx). reflexivity.
Qed.

Lemma write_color_undefined_witness :
  write_color EmptyString (mk_vec3 f1 S754_nan f1) = None.
Proof.
  exact (write_color_undefined EmptyString (mk_vec3 f1 S754_nan f1) eq_refl).
Defined.

Local Open Scope string_scope.

Lemma count_LF_app (a b : string) :
  count_LF (a ++ b) = (count_LF a + count_LF b)%nat.
Proof.
  induction a as [|ch a IH]; simpl; [reflexivity|].
  destruct (Ascii.eqb ch _); simpl; now rewrite IH.
Qed.

Lemma count_LF_uint (d : Decimal.uint) :
  count_LF (NilEmpty.string_of_uint d) = O.
Proof. induction d; simpl; assumption || reflexivity. Qed.

Lemma count_LF_int (n : Z) :
  count_LF (NilZero.string_of_int (Z.to_int n)) = O.
Proof.
  unfold NilZero.string_of_int.
  destruct (Z.to_int n) as [d|d]; unfold NilZero.string_of_uint;
    destruct d; try reflexivity; simpl; apply count_LF_uint.
Qed.

(** X23: when [write_color] is defined it only appends to the stream,
    and what it appends is one line: a text without line feed, followed
    by one line feed. *)
Theorem write_color_one_line (out out' : ostream) (c : color) :
  write_color out c = Some out' ->
  exists line : string,
    out' = out ++ line ++ LF /\ count_LF line = O /\
    count_LF out' = S (count_LF out).
Proof.
  unfold write_color.
  destruct (F32.trunc _) as [r|]; [|discriminate].
  destruct (F32.trunc _) as [g|]; [|discriminate].
  destruct (F32.trunc _) as [b|]; [|discriminate].
  intros H. injection H as <-.
  set (dr := NilZero.string_of_int (Z.to_int r)).
  set (dg := NilZero.string_of_int (Z.to_int g)).
  set (db := NilZero.string_of_int (Z.to_int b)).
  assert (Hl : count_LF (dr ++ " " ++ dg ++ " " ++ db) = O).
  { rewrite !count_LF_app. subst dr dg db. rewrite !count_LF_int. reflexivity. }
  exists (dr ++ " " ++ dg ++ " " ++ db).
  assert (E : put (put_int (put (put_int (put (put_int out r) " ") g) " ") b) LF
              = out ++ (dr ++ " " ++ dg ++ " " ++ db) ++ LF).
  { unfold put, put_int. fold dr dg db. rewrite <- !append_assoc. reflexivity. }
  split; [exact E|]. split; [exact Hl|].
  rewrite E, (count_LF_app out), (count_LF_app _ LF), Hl. simpl. lia.
Qed.

Lemma write_color_one_line_witness :
  write_color "P3" (vecZ 0 1 0) = Some ("P3" ++ "0 255 0" ++ LF) /\
  exists line : string,
    "P3" ++ "0 255 0" ++ LF = "P3" ++ line ++ LF /\ count_LF line = O /\
    count_LF ("P3" ++ "0 255 0" ++ LF) = S (count_LF "P3").
Proof.
  assert (H : write_color "P3" (vecZ 0 1 0) = Some ("P3" ++ "0 255 0" ++ LF))
    by reflexivity.
  split; [exact H|].
  exact (write_color_one_line "P3" _ (vecZ 0 1 0) H).
Defined.

Lemma scanline_cerr (h j : Z) (s : streams) :
  cerr (scanline h j s)
    = cerr s ++ CR ++ "Scanlines remaining: "
        ++ NilZero.string_of_int (Z.to_int j) ++ " ".
Proof.
  unfold scanline. rewrite for_up_id by (apply pixel_id). cbn [cerr].
  unfold put, put_int. rewrite <- !append_assoc. reflexivity.
Qed.

Lemma append_empty_r (s : string) : s ++ "" = s.
Proof. induction s as [|ch t IH]; simpl; [reflexivity|]. now rewrite IH. Qed.

(** The outer loop over [n] rows adds the progress text of [n] rows. *)
Lemma for_down_cerr (h : Z) (n : nat) (s : streams) :
  cerr (for_down n (scanline h) s) = cerr s ++ progress n.
Proof.
  revert s. induction n as [|n IH]; intros s; cbn [for_down progress].
  - symmetry. apply append_empty_r.
  - rewrite IH, scanline_cerr. rewrite <- !append_assoc. reflexivity.
Qed.

Lemma progress_no_LF (n : nat) : count_LF (progress n) = O.
Proof.
  induction n as [|n IH]; [reflexivity|].
  cbn [progress]. rewrite !count_LF_app, count_LF_int, IH. reflexivity.
Qed.

(** X24: [main] writes two line feeds to [stdout]; to [cerr] it writes
    one progress message per row, numbered 224 down to 0, each opened by
    a carriage return and none holding a line feed, and then the line
    [Done.]. *)
Theorem main_diagnostics :
  option_map cerr main = Some (progress 225 ++ LF ++ "Done." ++ LF) /\
  option_map stdout main = Some (LF ++ LF) /\
  count_LF (progress 225) = O /\
  forall n : nat,
    progress (S n)
      = (CR ++ "Scanlines remaining: "
           ++ NilZero.string_of_int (Z.to_int (Z.of_nat n)) ++ " ")
        ++ progress n.
Proof.
  unfold main. rewrite image_height_is_225. cbv zeta.
  unfold option_map. cbn [file stdout cerr].
  rewrite for_down_cerr, (for_down_inv stdout) by (apply scanline_stdout).
  cbn [cerr stdout]. unfold put. split; [reflexivity|]. split; [reflexivity|].
  split; [apply progress_no_LF|]. intros n. reflexivity.
Qed.

Local Close Scope string_scope.
